(** * FoundationShims.h: the declarations the header contributes

    [stdlib/public/SwiftShims/FoundationShims.h] holds no executable code: it
    is a list of preprocessor directives and C declarations.  The embedding
    below keeps it in that shape.  The header is a value of type
    [list item] (directives and declarations, in source order), and
    [preprocess] is the part of the C preprocessor the header exercises:
    conditional inclusion on a macro environment, [#define], [#include] and
    the expansion of the function-like macro [SWIFT_ENUM].  Its result is the
    list of declarations a translation unit receives from the header together
    with the macro environment it leaves behind. *)

From Stdlib Require Import ZArith List String.
From stdpp Require Import base option list strings gmap.

Local Open Scope string_scope.
Local Open Scope list_scope.
Local Open Scope Z_scope.

(** ** C types as the header spells them *)

(** Clang nullability qualifiers: [_Nullable], [_Nonnull], or none. *)
Inductive nullability := Nullable | Nonnull | Unannotated.

(** Objective-C ownership qualifiers on object references:
    [__unsafe_unretained], or none. *)
Inductive ownership := UnsafeUnretained | Unqualified.

Inductive ctype :=
| Void                                      (* void *)
| SignedChar                                (* signed char *)
| UnsignedLong                              (* unsigned long *)
| C99Bool                                   (* _Bool *)
| CxxBool                                   (* bool *)
| Named (name : string)                     (* a typedef name *)
| Id (own : ownership) (null : nullability) (* id, an object reference *)
| Pointer (to : ctype) (null : nullability) (* T * *)
| Array (elem : ctype) (len : nat).         (* T [len] *)

(** A struct field or a function parameter: a name and its type. *)
Record member := Member { mname : string; mtype : ctype }.

(** An enumerator, with its initialiser when one is written. *)
Record enumerator := Enumerator { ename : string; einit : option Z }.

(** ** Preprocessing tokens and macros *)

Inductive token :=
| TkEnum                 (* the keyword enum *)
| TkColon                (* : *)
| TkSemi                 (* ; *)
| TkIdent (s : string)   (* an identifier *)
| TkOther (s : string).  (* any other preprocessing token *)

Inductive macro_def :=
| ObjectLike (body : list token)
| FunctionLike (params : list string) (body : list token).

(** ** Declarations *)

Inductive decl :=
| NamespaceOpen (name : string)          (* namespace name { *)
| ExternCOpen                            (* extern "C" { *)
| BlockClose                             (* } *)
| TypedefStruct (name : string) (fields : list member)
                                         (* typedef struct { fields } name; *)
| Typedef (name : string) (t : ctype)    (* typedef t name; *)
| TypedefEnum (tag : string) (underlying : ctype) (name : string)
                                         (* typedef enum tag : underlying name; *)
| EnumDef (tag : string) (underlying : ctype) (es : list enumerator)
                                         (* enum tag : underlying { es }; *)
| Prototype (attrs : list string) (ret : ctype) (name : string)
            (params : list member)       (* attrs ret name(params); *)
| Unparsed (toks : list token) (es : list enumerator).
                                         (* typedef toks { es };  not recognised *)

(** ** The lines of a header *)

#[warnings="-register-all"]
Inductive item :=
| Include (file : string)                         (* #include "file" *)
| Define (m : string) (d : macro_def)             (* #define m ... *)
| IfDef (m : string) (thn els : list item)        (* #ifdef m ... #else ... #endif *)
| IfNDef (m : string) (thn els : list item)       (* #ifndef m ... #else ... #endif *)
| Decl (d : decl)                                 (* a declaration free of macro calls *)
| TypedefMacro (m : string) (args : list (list token)) (es : list enumerator).
                                                  (* typedef m(args) { es }; *)

(** ** The header, line by line *)

Module FoundationShims.

Definition guard : string := "SWIFT_STDLIB_SHIMS_FOUNDATIONSHIMS_H".

Definition SWIFT_RUNTIME_STDLIB_INTERFACE : string :=
  "SWIFT_RUNTIME_STDLIB_INTERFACE".

(** [#define SWIFT_ENUM(_type, _name)
       enum _name : _type _name; enum _name : _type] (line 61). *)
Definition SWIFT_ENUM : macro_def :=
  FunctionLike ["_type"; "_name"]
    [TkEnum; TkIdent "_name"; TkColon; TkIdent "_type"; TkIdent "_name"; TkSemi;
     TkEnum; TkIdent "_name"; TkColon; TkIdent "_type"].

(** Lines 36-39. *)
Definition _SwiftNSRange : decl :=
  TypedefStruct "_SwiftNSRange"
    [Member "location" (Named "__swift_intptr_t");
     Member "length" (Named "__swift_intptr_t")].

(** Lines 42-47. *)
Definition _SwiftNSFastEnumerationState : decl :=
  TypedefStruct "_SwiftNSFastEnumerationState"
    [Member "state" UnsignedLong;
     Member "itemsPtr" (Pointer (Id UnsafeUnretained Nullable) Nullable);
     Member "mutationsPtr" (Pointer UnsignedLong Nullable);
     Member "extra" (Array UnsignedLong 5)].

(** Lines 51-55. *)
Definition _SwiftNSOperatingSystemVersion : decl :=
  TypedefStruct "_SwiftNSOperatingSystemVersion"
    [Member "majorVersion" (Named "__swift_intptr_t");
     Member "minorVersion" (Named "__swift_intptr_t");
     Member "patchVersion" (Named "__swift_intptr_t")].

(** Lines 57-58. *)
Definition _swift_stdlib_operatingSystemVersion : decl :=
  Prototype [SWIFT_RUNTIME_STDLIB_INTERFACE]
    (Named "_SwiftNSOperatingSystemVersion")
    "_swift_stdlib_operatingSystemVersion" [].

(** The enumerators of lines 65-70. *)
Definition _SwiftKnownNSErrorKey_enumerators : list enumerator :=
  [Enumerator "_SwiftKnownNSErrorKeyLocalizedDescription" (Some 0);
   Enumerator "_SwiftKnownNSErrorKeyLocalizedFailureReason" None;
   Enumerator "_SwiftKnownNSErrorKeyLocalizedRecoverySuggestion" None;
   Enumerator "_SwiftKnownNSErrorKeyHelpAnchor" None;
   Enumerator "_SwiftKnownNSErrorKeyLocalizedRecoveryOptions" None;
   Enumerator "_SwiftKnownNSErrorKeyRecoveryAttempter" None].

(** Lines 73-74. *)
Definition _swift_stdlib_nserror_key : decl :=
  Prototype [SWIFT_RUNTIME_STDLIB_INTERFACE]
    (Id Unqualified Nonnull)
    "_swift_stdlib_nserror_key"
    [Member "key" (Named "_SwiftKnownNSErrorKey")].

(** Lines 87-92. *)
Definition _swift_stdlib_perform_error_recovery_selector : decl :=
  Prototype [SWIFT_RUNTIME_STDLIB_INTERFACE]
    Void
    "_swift_stdlib_perform_error_recovery_selector"
    [Member "delegate" (Id Unqualified Nullable);
     Member "selector" (Pointer Void Nonnull);
     Member "success" (Named "_SwiftCBool");
     Member "contextInfo" (Pointer Void Nullable)].

Definition header : list item :=
  [IfNDef guard                                                  (* 19 *)
     [Define guard (ObjectLike []);                              (* 20 *)
      Include "SwiftStdint.h";                                   (* 30 *)
      IfDef "__cplusplus"                                        (* 32 *)
        [Decl (NamespaceOpen "swift"); Decl ExternCOpen] [];     (* 33 *)
      Decl _SwiftNSRange;                                        (* 36 *)
      IfDef "__OBJC2__"                                          (* 41 *)
        [Decl _SwiftNSFastEnumerationState] [];                  (* 42 *)
      Decl _SwiftNSOperatingSystemVersion;                       (* 51 *)
      Decl _swift_stdlib_operatingSystemVersion;                 (* 57 *)
      IfNDef "SWIFT_ENUM"                                        (* 60 *)
        [Define "SWIFT_ENUM" SWIFT_ENUM] [];                     (* 61 *)
      TypedefMacro "SWIFT_ENUM"                                  (* 64 *)
        [[TkIdent "__swift_int8_t"]; [TkIdent "_SwiftKnownNSErrorKey"]]
        _SwiftKnownNSErrorKey_enumerators;
      Decl _swift_stdlib_nserror_key;                            (* 73 *)
      Decl (Typedef "_SwiftObjCBool" SignedChar);                (* 79 *)
      IfDef "__cplusplus"                                        (* 81 *)
        [Decl (Typedef "_SwiftCBool" CxxBool)]                   (* 82 *)
        [Decl (Typedef "_SwiftCBool" C99Bool)];                  (* 84 *)
      Decl _swift_stdlib_perform_error_recovery_selector;        (* 87 *)
      IfDef "__cplusplus"                                        (* 94 *)
        [Decl BlockClose; Decl BlockClose] []]                   (* 95 *)
     []].                                                        (* 98 *)

End FoundationShims.

(** ** The preprocessor *)

(** Whether a macro is defined, as [#ifdef] asks. *)
Definition defined (env : gmap string macro_def) (m : string) : bool :=
  match env !! m with Some _ => true | None => false end.

(** Replacing the parameters of a function-like macro by the arguments. *)
Fixpoint bind_params (ps : list string) (args : list (list token))
  : option (list (string * list token)) :=
  match ps, args with
  | [], [] => Some []
  | p :: ps', a :: args' =>
      match bind_params ps' args' with
      | Some b => Some ((p, a) :: b)
      | None => None
      end
  | _, _ => None
  end.

Fixpoint lookup_param (b : list (string * list token)) (s : string)
  : option (list token) :=
  match b with
  | [] => None
  | (p, a) :: b' => if String.eqb p s then Some a else lookup_param b' s
  end.

Definition subst_token (b : list (string * list token)) (t : token)
  : list token :=
  match t with
  | TkIdent s => match lookup_param b s with Some a => a | None => [t] end
  | _ => [t]
  end.

(** The expansion of a call [m(args)]; [None] when [m] is not a function-like
    macro of that arity. *)
Definition expand (d : option macro_def) (args : list (list token))
  : option (list token) :=
  match d with
  | Some (FunctionLike ps body) =>
      match bind_params ps args with
      | Some b => Some (concat (map (subst_token b) body))
      | None => None
      end
  | _ => None
  end.

(** Reading [typedef toks { es };] once [toks] is free of macro calls:
    [enum tag : ty name; enum tag' : ty'] is a typedef of a forward-declared
    enumeration followed by the head of its definition. *)
Definition enum_heads (toks : list token)
  : option ((string * string * string) * (string * string)) :=
  match toks with
  | [TkEnum; TkIdent tag1; TkColon; TkIdent ty1; TkIdent name; TkSemi;
     TkEnum; TkIdent tag2; TkColon; TkIdent ty2] =>
      Some ((tag1, ty1, name), (tag2, ty2))
  | _ => None
  end.

Definition parse_typedef_enum (toks : list token) (es : list enumerator)
  : list decl :=
  match enum_heads toks with
  | Some ((tag1, ty1, name), (tag2, ty2)) =>
      [TypedefEnum tag1 (Named ty1) name; EnumDef tag2 (Named ty2) es]
  | None => [Unparsed toks es]
  end.

(** The declarations of [typedef m(args) { es };] under the definition of
    [m] in force. *)
Definition pp_typedef_macro (env : gmap string macro_def) (m : string)
    (args : list (list token)) (es : list enumerator) : list decl :=
  match expand (env !! m) args with
  | Some toks => parse_typedef_enum toks es
  | None => [Unparsed (TkIdent m :: concat args) es]
  end.

Section Preprocess.

(** What an included file does to the macro environment.  The declarations
    of an included file are its own, not this header's, and are left out of
    the result. *)
Variable include_env :
  string -> gmap string macro_def -> gmap string macro_def.

Definition pp_seq {A : Type}
    (step : A -> gmap string macro_def -> gmap string macro_def * list decl)
  : list A -> gmap string macro_def -> gmap string macro_def * list decl :=
  fix go (l : list A) (env : gmap string macro_def) :=
    match l with
    | [] => (env, [])
    | x :: l' =>
        let '(env1, d1) := step x env in
        let '(env2, d2) := go l' env1 in
        (env2, d1 ++ d2)
    end.

Fixpoint pp_item (i : item) (env : gmap string macro_def)
  : gmap string macro_def * list decl :=
  match i with
  | Include file => (include_env file env, [])
  | Define m d => (<[m := d]> env, [])
  | IfDef m thn els =>
      if defined env m then pp_seq pp_item thn env
      else pp_seq pp_item els env
  | IfNDef m thn els =>
      if defined env m then pp_seq pp_item els env
      else pp_seq pp_item thn env
  | Decl d => (env, [d])
  | TypedefMacro m args es => (env, pp_typedef_macro env m args es)
  end.

Definition preprocess : list item -> gmap string macro_def ->
                        gmap string macro_def * list decl :=
  pp_seq pp_item.

End Preprocess.

(** The same header included [n] times in a row: [#include] pastes the lines
    of the file in place of the directive. *)
Definition included_times (n : nat) (h : list item) : list item :=
  concat (replicate n h).

(** The macro environment in which the lines between the guard and the final
    [#endif] are read: the guard has been defined (line 20) and
    [SwiftStdint.h] included (line 30). *)
Definition body_env
    (include_env : string -> gmap string macro_def -> gmap string macro_def)
    (env : gmap string macro_def) : gmap string macro_def :=
  include_env "SwiftStdint.h" (<[FoundationShims.guard := ObjectLike []]> env).

(** ** Reading the declarations *)

(** The field lists of the [typedef struct { ... } name;] declarations. *)
Definition struct_decls (name : string) (ds : list decl) : list (list member) :=
  flat_map (fun d => match d with
                     | TypedefStruct n fs => if String.eqb n name then [fs] else []
                     | _ => []
                     end) ds.

(** The definitions [enum tag : underlying { ... };]. *)
Definition enum_decls (tag : string) (ds : list decl)
  : list (ctype * list enumerator) :=
  flat_map (fun d => match d with
                     | EnumDef n u es => if String.eqb n tag then [(u, es)] else []
                     | _ => []
                     end) ds.

(** The types that [typedef t name;] declarations give to [name]. *)
Definition typedef_decls (name : string) (ds : list decl) : list ctype :=
  flat_map (fun d => match d with
                     | Typedef n t => if String.eqb n name then [t] else []
                     | _ => []
                     end) ds.

(** A function prototype: attributes, return type and parameters. *)
Record signature :=
  Signature { sattrs : list string; sret : ctype; sparams : list member }.

Definition prototype_decls (name : string) (ds : list decl) : list signature :=
  flat_map (fun d => match d with
                     | Prototype a r n ps =>
                         if String.eqb n name then [Signature a r ps] else []
                     | _ => []
                     end) ds.

(** The names of all declared functions, in order. *)
Definition prototype_names (ds : list decl) : list string :=
  flat_map (fun d => match d with Prototype _ _ n _ => [n] | _ => [] end) ds.

(** The names of all struct and enumeration types defined, in order. *)
Definition type_names (ds : list decl) : list string :=
  flat_map (fun d => match d with
                     | TypedefStruct n _ => [n]
                     | EnumDef n _ _ => [n]
                     | _ => []
                     end) ds.

(** The names introduced by plain [typedef t name;] declarations, in order. *)
Definition typedef_names (ds : list decl) : list string :=
  flat_map (fun d => match d with Typedef n _ => [n] | _ => [] end) ds.

(** The type of the parameter called [name]. *)
Definition param_type (name : string) (s : signature) : option ctype :=
  mtype <$> List.find (fun p => String.eqb (mname p) name) (sparams s).

(** A typedef name stands for the type it was declared with. *)
Definition resolve (ds : list decl) (t : ctype) : ctype :=
  match t with
  | Named n => match typedef_decls n ds with t' :: _ => t' | [] => t end
  | _ => t
  end.

(** ** What the declarations mean in C *)

(** The values of enumerators: an initialiser gives the value, an enumerator
    without one takes the previous value plus one, and the first takes 0. *)
Fixpoint enum_values_from (next : Z) (es : list enumerator)
  : list (string * Z) :=
  match es with
  | [] => []
  | e :: es' =>
      let v := match einit e with Some x => x | None => next end in
      (ename e, v) :: enum_values_from (v + 1) es'
  end.

Definition enum_values : list enumerator -> list (string * Z) :=
  enum_values_from 0.

(** Nullability of a pointer or object-reference type, read off its
    outermost qualifier. *)
Definition nullability_of (t : ctype) : option nullability :=
  match t with
  | Id _ n => Some n
  | Pointer _ n => Some n
  | _ => None
  end.

Definition accepts_null (t : ctype) : bool :=
  match nullability_of t with Some Nullable => true | _ => false end.

Definition never_null (t : ctype) : bool :=
  match nullability_of t with Some Nonnull => true | _ => false end.

(** A parameter through which a callee hands a reference back (the Cocoa
    error convention is a pointer to an object reference). *)
Definition out_parameter (t : ctype) : bool :=
  match t with
  | Pointer (Id _ _) _ | Pointer (Pointer _ _) _ => true
  | _ => false
  end.

Inductive signedness := Signed | Unsigned.
Inductive width := Bits (n : N) | LongWidth | PointerWidth.

Module SwiftStdint.

(** Modelled from the spec: the typedefs of [SwiftStdint.h], which the header
    includes (line 30) and which is not among the sources.  The spec calls the
    fields of type [__swift_intptr_t] platform-native-width integers and the
    type under the enumeration a narrow integer; [__swift_int8_t] is given
    the 8 bits of its name. *)
Definition integer_typedef (name : string) : option (signedness * width) :=
  if String.eqb name "__swift_int8_t" then Some (Signed, Bits 8)
  else if String.eqb name "__swift_intptr_t" then Some (Signed, PointerWidth)
  else None.

End SwiftStdint.

(** The integer types among the spelled types.  A [char] has 8 bits on every
    platform the library is built for; the widths of [long] and of pointers
    are left to the platform. *)
Definition integer_type (t : ctype) : option (signedness * width) :=
  match t with
  | SignedChar => Some (Signed, Bits 8)
  | UnsignedLong => Some (Unsigned, LongWidth)
  | Named n => SwiftStdint.integer_typedef n
  | _ => None
  end.

(** The values an integer type of a given width holds. *)
Definition in_range (s : signedness) (bits : N) (v : Z) : bool :=
  match s with
  | Signed => (- 2 ^ (Z.of_N bits - 1) <=? v) && (v <? 2 ^ (Z.of_N bits - 1))
  | Unsigned => (0 <=? v) && (v <? 2 ^ Z.of_N bits)
  end.

(** The boolean type of the language the header is compiled as. *)
Definition native_bool (t : ctype) : bool :=
  match t with C99Bool | CxxBool => true | _ => false end.

(** ** The entry point the header declares and the runtime defines *)

Module Runtime.

(** An object reference: null, or the framework's canonical key object of an
    error-metadata field; the field is named by its enumerator. *)
Inductive reference := Null | KeyObject (field : string).

(** A call returns a reference, or its behaviour is undefined. *)
Inductive outcome := Returns (r : reference) | Undefined.

(** Modelled from the spec: the body of [_swift_stdlib_nserror_key], which the
    header declares (lines 73-74) and which is defined elsewhere in the
    repository.  Given one tag of the known-error-key enumeration it returns
    the framework's canonical key object for that metadata field; for a value
    outside the enumeration the behaviour is undefined. *)
Definition _swift_stdlib_nserror_key (key : Z) : outcome :=
  match List.find (fun nv => Z.eqb nv.2 key)
          (enum_values FoundationShims._SwiftKnownNSErrorKey_enumerators) with
  | Some (field, _) => Returns (KeyObject field)
  | None => Undefined
  end.

End Runtime.

(** An included file that leaves the macro environment as it found it. *)
Definition no_macros (file : string) (env : gmap string macro_def)
  : gmap string macro_def := env.

(** The environment of an Objective-C++ compilation on a platform with the
    Objective-C 2 runtime. *)
Definition objcxx_env : gmap string macro_def :=
  <["__cplusplus" := ObjectLike [TkOther "201103L"]]>
    (<["__OBJC2__" := ObjectLike [TkOther "1"]]> ∅).

(** ** Auxiliary notions for the proofs *)

(** The macro call of line 64 only ever yields enumeration declarations or
    text that is not recognised. *)
Definition from_typedef_macro (d : decl) : Prop :=
  match d with
  | TypedefEnum _ _ _ | EnumDef _ _ _ | Unparsed _ _ => True
  | _ => False
  end.

(** ** Blocks, scopes and layout *)

(** The nesting depth after a run of declarations read at [depth]; [None]
    when a closing brace has no block to close. *)
Fixpoint nesting (depth : nat) (ds : list decl) : option nat :=
  match ds with
  | [] => Some depth
  | NamespaceOpen _ :: ds' => nesting (S depth) ds'
  | ExternCOpen :: ds' => nesting (S depth) ds'
  | BlockClose :: ds' =>
      match depth with
      | O => None
      | S depth' => nesting depth' ds'
      end
  | _ :: ds' => nesting depth ds'
  end.

(** The blocks a declaration can lie in. *)
Inductive block := InNamespace (name : string) | InExternC.

(** Every declared function with the blocks around it, innermost first. *)
Fixpoint prototypes_in (stack : list block) (ds : list decl)
  : list (string * list block) :=
  match ds with
  | [] => []
  | NamespaceOpen n :: ds' => prototypes_in (InNamespace n :: stack) ds'
  | ExternCOpen :: ds' => prototypes_in (InExternC :: stack) ds'
  | BlockClose :: ds' => prototypes_in (tail stack) ds'
  | Prototype _ _ n _ :: ds' => (n, stack) :: prototypes_in stack ds'
  | _ :: ds' => prototypes_in stack ds'
  end.

(** The attribute lists of all declared functions, in order. *)
Definition prototype_attrs (ds : list decl) : list (list string) :=
  flat_map (fun d => match d with Prototype a _ _ _ => [a] | _ => [] end) ds.

(** The typedef names a type is spelled with. *)
Fixpoint names_in (t : ctype) : list string :=
  match t with
  | Named n => [n]
  | Pointer t' _ => names_in t'
  | Array t' _ => names_in t'
  | _ => []
  end.

(** The typedef names a declaration needs, and the ones it introduces.  An
    enumeration tag is no typedef name. *)
Definition uses (d : decl) : list string :=
  match d with
  | TypedefStruct _ fs => flat_map (fun f => names_in (mtype f)) fs
  | Typedef _ t => names_in t
  | TypedefEnum _ u _ => names_in u
  | EnumDef _ u _ => names_in u
  | Prototype _ r _ ps => names_in r ++ flat_map (fun p => names_in (mtype p)) ps
  | _ => []
  end.

Definition declares (d : decl) : list string :=
  match d with
  | TypedefStruct n _ => [n]
  | Typedef n _ => [n]
  | TypedefEnum _ _ n => [n]
  | _ => []
  end.

(** Whether every typedef name is declared, or [known] beforehand, at the
    point where a declaration uses it. *)
Fixpoint declared_before_use (known : list string) (ds : list decl) : bool :=
  match ds with
  | [] => true
  | d :: ds' =>
      forallb (fun n => existsb (String.eqb n) known) (uses d)
      && declared_before_use (declares d ++ known) ds'
  end.

(** Whether [n] is used by some declaration of [ds] that no earlier
    declaration of [ds] has introduced it for. *)
Fixpoint used_undeclared (n : string) (ds : list decl) : bool :=
  match ds with
  | [] => false
  | d :: ds' =>
      if existsb (String.eqb n) (uses d) then true
      else if existsb (String.eqb n) (declares d) then false
      else used_undeclared n ds'
  end.


(** The sizes, in bytes, that a platform gives to [long] and to pointers. *)
Record data_model := DataModel { long_bytes : Z; pointer_bytes : Z }.

Definition width_bytes (dm : data_model) (w : width) : Z :=
  match w with
  | Bits n => Z.of_N n / 8
  | LongWidth => long_bytes dm
  | PointerWidth => pointer_bytes dm
  end.

Fixpoint sizeof (dm : data_model) (t : ctype) : option Z :=
  match t with
  | Void => None
  | C99Bool | CxxBool => Some 1
  | Id _ _ | Pointer _ _ => Some (pointer_bytes dm)
  | Array t' n =>
      match sizeof dm t' with
      | Some s => Some (Z.of_nat n * s)
      | None => None
      end
  | _ =>
      match integer_type t with
      | Some (_, w) => Some (width_bytes dm w)
      | None => None
      end
  end.

(** Scalars are aligned to their size, arrays as their elements. *)
Fixpoint alignof (dm : data_model) (t : ctype) : option Z :=
  match t with
  | Array t' _ => alignof dm t'
  | _ => sizeof dm t
  end.

(** The least multiple of [a] that is not below [off]. *)
Definition align_up (off a : Z) : Z := (off + a - 1) / a * a.

(** The offsets of the fields of a struct placed in order from [off], each
    at the next multiple of its alignment, and the size of the struct, a
    multiple of the largest alignment. *)
Fixpoint layout_from (dm : data_model) (off maxalign : Z) (fs : list member)
  : option (list (string * Z) * Z) :=
  match fs with
  | [] => Some ([], align_up off maxalign)
  | f :: fs' =>
      match sizeof dm (mtype f), alignof dm (mtype f) with
      | Some s, Some a =>
          let o := align_up off a in
          match layout_from dm (o + s) (Z.max maxalign a) fs' with
          | Some (offs, size) => Some ((mname f, o) :: offs, size)
          | None => None
          end
      | _, _ => None
      end
  end.

Definition layout (dm : data_model) (fs : list member)
  : option (list (string * Z) * Z) :=
  layout_from dm 0 1 fs.

Definition struct_fields (d : decl) : list member :=
  match d with
  | TypedefStruct _ fs => fs
  | _ => []
  end.

(** ** The model at work *)

(** Compiled as C with no macro predefined: the two mirrored structs that
    need no Objective-C runtime, the enumeration, the two boolean aliases and
    the three prototypes. *)
Example header_as_plain_c :
  (preprocess no_macros FoundationShims.header ∅).2 =
    [FoundationShims._SwiftNSRange;
     FoundationShims._SwiftNSOperatingSystemVersion;
     FoundationShims._swift_stdlib_operatingSystemVersion;
     TypedefEnum "_SwiftKnownNSErrorKey" (Named "__swift_int8_t")
       "_SwiftKnownNSErrorKey";
     EnumDef "_SwiftKnownNSErrorKey" (Named "__swift_int8_t")
       FoundationShims._SwiftKnownNSErrorKey_enumerators;
     FoundationShims._swift_stdlib_nserror_key;
     Typedef "_SwiftObjCBool" SignedChar;
     Typedef "_SwiftCBool" C99Bool;
     FoundationShims._swift_stdlib_perform_error_recovery_selector].
Proof. reflexivity. Qed.

(** Compiled as Objective-C++: the namespace and linkage block, the
    enumeration-state mirror, and [bool] behind [_SwiftCBool]. *)
Example header_as_objcxx :
  (preprocess no_macros FoundationShims.header objcxx_env).2 =
    [NamespaceOpen "swift"; ExternCOpen;
     FoundationShims._SwiftNSRange;
     FoundationShims._SwiftNSFastEnumerationState;
     FoundationShims._SwiftNSOperatingSystemVersion;
     FoundationShims._swift_stdlib_operatingSystemVersion;
     TypedefEnum "_SwiftKnownNSErrorKey" (Named "__swift_int8_t")
       "_SwiftKnownNSErrorKey";
     EnumDef "_SwiftKnownNSErrorKey" (Named "__swift_int8_t")
       FoundationShims._SwiftKnownNSErrorKey_enumerators;
     FoundationShims._swift_stdlib_nserror_key;
     Typedef "_SwiftObjCBool" SignedChar;
     Typedef "_SwiftCBool" CxxBool;
     FoundationShims._swift_stdlib_perform_error_recovery_selector;
     BlockClose; BlockClose].
Proof. reflexivity. Qed.

(** With the guard already defined the header is skipped whole. *)
Example header_skipped :
  preprocess no_macros FoundationShims.header
    (<[FoundationShims.guard := ObjectLike []]> ∅)
  = (<[FoundationShims.guard := ObjectLike []]> ∅, []).
Proof. reflexivity. Qed.

(** A [SWIFT_ENUM] defined beforehand is the one line 64 expands: here one
    that drops the underlying type, which the reader of line 64 does not
    recognise. *)
Example foreign_swift_enum :
  enum_decls "_SwiftKnownNSErrorKey"
    (preprocess no_macros FoundationShims.header
       (<["SWIFT_ENUM" :=
            FunctionLike ["_type"; "_name"] [TkEnum; TkIdent "_name"]]> ∅)).2
  = [].
Proof. reflexivity. Qed.

(** Enumerator values restart from an initialiser. *)
Example enum_values_restart :
  enum_values [Enumerator "a" None; Enumerator "b" (Some 7);
               Enumerator "c" None; Enumerator "d" (Some (-1));
               Enumerator "e" None]
  = [("a", 0); ("b", 7); ("c", 8); ("d", -1); ("e", 0)].
Proof. reflexivity. Qed.

(** ** Facts about the preprocessor *)

Lemma defined_insert (env : gmap string macro_def) k d m :
  defined (<[k := d]> env) m = if String.eqb k m then true else defined env m.
Proof.
  unfold defined. destruct (String.eqb_spec k m) as [->|Hne].
  - by rewrite lookup_insert_eq.
  - by rewrite lookup_insert_ne.
Qed.

Lemma pp_seq_app {A} (step : A -> gmap string macro_def ->
                             gmap string macro_def * list decl) l1 l2 env :
  pp_seq step (l1 ++ l2) env =
    let '(env1, d1) := pp_seq step l1 env in
    let '(env2, d2) := pp_seq step l2 env1 in
    (env2, d1 ++ d2).
Proof.
  revert env. induction l1 as [|x l1 IH]; intros env; cbn [pp_seq app].
  - by destruct (pp_seq step l2 env).
  - destruct (step x env) as [e1 d1]. rewrite IH.
    destruct (pp_seq step l1 e1) as [e2 d2].
    destruct (pp_seq step l2 e2) as [e3 d3].
    by rewrite app_assoc.
Qed.

Lemma pp_typedef_macro_shape env m args es :
  Forall from_typedef_macro (pp_typedef_macro env m args es).
Proof.
  unfold pp_typedef_macro, parse_typedef_enum.
  destruct (expand (env !! m) args) as [toks|].
  - destruct (enum_heads toks) as [[[[? ?] ?] [? ?]]|];
      repeat constructor.
  - repeat constructor.
Qed.

Lemma flat_map_typedef_macro {B} (f : decl -> list B) env m args es :
  (forall d, from_typedef_macro d -> f d = []) ->
  flat_map f (pp_typedef_macro env m args es) = [].
Proof.
  intros Hf.
  induction (pp_typedef_macro_shape env m args es) as [|d ds Hd _ IH];
    cbn [flat_map]; [done|].
  by rewrite (Hf d Hd), IH.
Qed.

(** ** What the header expands to *)

Section Header.
Import FoundationShims.

Variable include_env :
  string -> gmap string macro_def -> gmap string macro_def.

Ltac pp_run :=
  repeat first
    [ progress cbn [pp_seq pp_item fst snd app]
    | progress rewrite ?defined_insert
    | progress change (String.eqb "SWIFT_ENUM" "__cplusplus") with false
    | progress cbv iota
    | match goal with
      | H : defined ?e ?m = _ |- context [defined ?e ?m] => rewrite H
      | |- context [defined ?e ?m] => destruct (defined e m) eqn:?
      end ].

(** Once the guard is defined the header contributes nothing. *)
Lemma preprocess_header_guarded env :
  defined env guard = true ->
  preprocess include_env header env = (env, []).
Proof.
  intros H. unfold preprocess, header. cbn [pp_seq pp_item]. by rewrite H.
Qed.

(** Otherwise its declarations depend on three facts of the environment
    [body_env]: whether [__cplusplus], [__OBJC2__] and [SWIFT_ENUM] are
    defined. *)
Lemma preprocess_header env :
  defined env guard = false ->
  let e := body_env include_env env in
  let cxx := defined e "__cplusplus" in
  preprocess include_env header env =
    (if defined e "SWIFT_ENUM" then e else <["SWIFT_ENUM" := SWIFT_ENUM]> e,
     (if cxx then [NamespaceOpen "swift"; ExternCOpen] else []) ++
     [_SwiftNSRange] ++
     (if defined e "__OBJC2__" then [_SwiftNSFastEnumerationState] else []) ++
     [_SwiftNSOperatingSystemVersion; _swift_stdlib_operatingSystemVersion] ++
     (if defined e "SWIFT_ENUM"
      then pp_typedef_macro e "SWIFT_ENUM"
             [[TkIdent "__swift_int8_t"]; [TkIdent "_SwiftKnownNSErrorKey"]]
             _SwiftKnownNSErrorKey_enumerators
      else [TypedefEnum "_SwiftKnownNSErrorKey" (Named "__swift_int8_t")
              "_SwiftKnownNSErrorKey";
            EnumDef "_SwiftKnownNSErrorKey" (Named "__swift_int8_t")
              _SwiftKnownNSErrorKey_enumerators]) ++
     [_swift_stdlib_nserror_key;
      Typedef "_SwiftObjCBool" SignedChar;
      Typedef "_SwiftCBool" (if cxx then CxxBool else C99Bool);
      _swift_stdlib_perform_error_recovery_selector] ++
     (if cxx then [BlockClose; BlockClose] else [])).
Proof.
  intros H e cxx. subst cxx.
  unfold preprocess, header. cbn [pp_seq pp_item]. rewrite H.
  cbn [pp_seq pp_item]. fold (body_env include_env env). fold e.
  pp_run.
  all: rewrite ?app_nil_r; try reflexivity.
  all: unfold pp_typedef_macro; rewrite lookup_insert_eq; reflexivity.
Qed.

End Header.

Section Claims.
  Import FoundationShims.

Ltac header_cases inc env H :=
  rewrite (preprocess_header inc env H); cbn [snd];
  try match goal with
      | H' : defined (body_env inc env) "SWIFT_ENUM" = _ |- _ => rewrite H'
      end;
  destruct (defined (body_env inc env) "__cplusplus");
  destruct (defined (body_env inc env) "__OBJC2__");
  try destruct (defined (body_env inc env) "SWIFT_ENUM");
  rewrite ?flat_map_app;
  rewrite ?flat_map_typedef_macro by (by intros []);
  try reflexivity.

(** C1: with the header's own [SWIFT_ENUM] in force, the known-error-key
    enumeration is defined once, over the 8-bit integer type
    [__swift_int8_t], with exactly six tags: [LocalizedDescription] is 0 and
    [LocalizedFailureReason], [LocalizedRecoverySuggestion], [HelpAnchor],
    [LocalizedRecoveryOptions], [RecoveryAttempter] follow as 1 to 5, so every
    tag lies between 0 and 5 and fits the type. *)
Theorem known_error_key_ordinals inc env :
  defined env guard = false ->
  defined (body_env inc env) "SWIFT_ENUM" = false ->
  exists underlying es,
    enum_decls "_SwiftKnownNSErrorKey" (preprocess inc header env).2
      = [(underlying, es)] /\
    underlying = Named "__swift_int8_t" /\
    integer_type underlying = Some (Signed, Bits 8) /\
    enum_values es =
      [("_SwiftKnownNSErrorKeyLocalizedDescription", 0);
       ("_SwiftKnownNSErrorKeyLocalizedFailureReason", 1);
       ("_SwiftKnownNSErrorKeyLocalizedRecoverySuggestion", 2);
       ("_SwiftKnownNSErrorKeyHelpAnchor", 3);
       ("_SwiftKnownNSErrorKeyLocalizedRecoveryOptions", 4);
       ("_SwiftKnownNSErrorKeyRecoveryAttempter", 5)] /\
    length es = 6%nat /\
    Forall (fun nv => 0 <= nv.2 <= 5 /\ in_range Signed 8 nv.2 = true)
      (enum_values es).
Proof.
  intros H HE.
  exists (Named "__swift_int8_t"), _SwiftKnownNSErrorKey_enumerators.
  split.
  - unfold enum_decls. header_cases inc env H.
  - repeat split; repeat constructor; cbn; lia.
Qed.

Lemma known_error_key_ordinals_witness :
  defined objcxx_env guard = false /\
  defined (body_env no_macros objcxx_env) "SWIFT_ENUM" = false /\
  exists underlying es,
    enum_decls "_SwiftKnownNSErrorKey"
      (preprocess no_macros header objcxx_env).2 = [(underlying, es)] /\
    underlying = Named "__swift_int8_t" /\
    integer_type underlying = Some (Signed, Bits 8) /\
    enum_values es =
      [("_SwiftKnownNSErrorKeyLocalizedDescription", 0);
       ("_SwiftKnownNSErrorKeyLocalizedFailureReason", 1);
       ("_SwiftKnownNSErrorKeyLocalizedRecoverySuggestion", 2);
       ("_SwiftKnownNSErrorKeyHelpAnchor", 3);
       ("_SwiftKnownNSErrorKeyLocalizedRecoveryOptions", 4);
       ("_SwiftKnownNSErrorKeyRecoveryAttempter", 5)] /\
    length es = 6%nat /\
    Forall (fun nv => 0 <= nv.2 <= 5 /\ in_range Signed 8 nv.2 = true)
      (enum_values es).
Proof.
  split; [reflexivity|]. split; [reflexivity|].
  apply (known_error_key_ordinals no_macros objcxx_env); reflexivity.
Defined.

(** C2, as the spec has it, fails: compiled as plain C with no macro
    predefined, the header declares three functions, not four. *)
Lemma four_prototypes_counterexample :
  defined (∅ : gmap string macro_def) guard = false /\
  length (prototype_names (preprocess no_macros header ∅).2) <> 4%nat.
Proof. split; [reflexivity|]. vm_compute. discriminate. Qed.

(** C2, amended: the header declares exactly three entry points,
    [_swift_stdlib_operatingSystemVersion], [_swift_stdlib_nserror_key] and
    [_swift_stdlib_perform_error_recovery_selector]; its mirrored types are
    the four of the spec, of which [_SwiftNSFastEnumerationState] is present
    only under [__OBJC2__]. *)
Theorem three_prototypes inc env :
  defined env guard = false ->
  let ds := (preprocess inc header env).2 in
  prototype_names ds =
    ["_swift_stdlib_operatingSystemVersion";
     "_swift_stdlib_nserror_key";
     "_swift_stdlib_perform_error_recovery_selector"] /\
  length (prototype_names ds) = 3%nat /\
  (defined (body_env inc env) "SWIFT_ENUM" = false ->
   type_names ds =
     ["_SwiftNSRange"] ++
     (if defined (body_env inc env) "__OBJC2__"
      then ["_SwiftNSFastEnumerationState"] else []) ++
     ["_SwiftNSOperatingSystemVersion"; "_SwiftKnownNSErrorKey"]).
Proof.
  intros H ds. subst ds.
  assert (Hp : prototype_names (preprocess inc header env).2 =
    ["_swift_stdlib_operatingSystemVersion";
     "_swift_stdlib_nserror_key";
     "_swift_stdlib_perform_error_recovery_selector"]).
  { unfold prototype_names. header_cases inc env H. }
  split; [exact Hp|]. split; [by rewrite Hp|].
  intros HE. unfold type_names. header_cases inc env H.
Qed.

Lemma three_prototypes_witness :
  defined objcxx_env guard = false /\
  prototype_names (preprocess no_macros header objcxx_env).2 =
    ["_swift_stdlib_operatingSystemVersion";
     "_swift_stdlib_nserror_key";
     "_swift_stdlib_perform_error_recovery_selector"] /\
  type_names (preprocess no_macros header objcxx_env).2 =
    ["_SwiftNSRange"; "_SwiftNSFastEnumerationState";
     "_SwiftNSOperatingSystemVersion"; "_SwiftKnownNSErrorKey"].
Proof.
  split; [reflexivity|].
  destruct (three_prototypes no_macros objcxx_env eq_refl) as (Hp & _ & Ht).
  split; [exact Hp | exact (Ht eq_refl)].
Defined.

(** C3: [_swift_stdlib_nserror_key] is declared to take a known-error-key tag
    and to return a [_Nonnull] object reference; for each of the six tags the
    call returns a reference that is not null, and for a value that is not a
    tag its behaviour is undefined. *)
Theorem nserror_key_nonnull inc env key :
  defined env guard = false ->
  In key (map snd (enum_values _SwiftKnownNSErrorKey_enumerators)) ->
  (exists s,
     prototype_decls "_swift_stdlib_nserror_key" (preprocess inc header env).2
       = [s] /\
     sret s = Id Unqualified Nonnull /\
     never_null (sret s) = true /\
     sparams s = [Member "key" (Named "_SwiftKnownNSErrorKey")]) /\
  (exists r, Runtime._swift_stdlib_nserror_key key = Runtime.Returns r /\
             r <> Runtime.Null) /\
  (forall other,
     ~ In other (map snd (enum_values _SwiftKnownNSErrorKey_enumerators)) ->
     Runtime._swift_stdlib_nserror_key other = Runtime.Undefined).
Proof.
  intros H Hkey. split; [|split].
  - eexists.
    split; [unfold prototype_decls; header_cases inc env H | by repeat split].
  - cbn in Hkey.
    repeat (destruct Hkey as [<-|Hkey]; [eexists; split; [reflexivity|done]|]).
    destruct Hkey.
  - intros other Hother. unfold Runtime._swift_stdlib_nserror_key.
    destruct (List.find _ _) as [[field v]|] eqn:Hfind; [|done].
    apply find_some in Hfind as [Hin Heq]. cbn in Heq.
    apply Z.eqb_eq in Heq as ->. destruct Hother.
    change other with (field, other).2. by apply in_map.
Qed.

Lemma nserror_key_nonnull_witness :
  defined objcxx_env guard = false /\
  In 3 (map snd (enum_values _SwiftKnownNSErrorKey_enumerators)) /\
  exists r, Runtime._swift_stdlib_nserror_key 3 = Runtime.Returns r /\
            r <> Runtime.Null.
Proof.
  assert (Hin : In 3 (map snd (enum_values _SwiftKnownNSErrorKey_enumerators)))
    by (vm_compute; tauto).
  split; [reflexivity|]. split; [exact Hin|].
  exact (proj1 (proj2
    (nserror_key_nonnull no_macros objcxx_env 3 eq_refl Hin))).
Defined.

(** C4: [_swift_stdlib_perform_error_recovery_selector] takes [delegate] and
    [contextInfo] as [_Nullable] (a null argument is accepted for either),
    [selector] as [_Nonnull], returns [void], and has no parameter through
    which an error could come back. *)
Theorem perform_error_recovery_selector_signature inc env :
  defined env guard = false ->
  exists s,
    prototype_decls "_swift_stdlib_perform_error_recovery_selector"
      (preprocess inc header env).2 = [s] /\
    map mname (sparams s) = ["delegate"; "selector"; "success"; "contextInfo"] /\
    accepts_null <$> param_type "delegate" s = Some true /\
    accepts_null <$> param_type "contextInfo" s = Some true /\
    never_null <$> param_type "selector" s = Some true /\
    sret s = Void /\
    forallb (fun p => negb (out_parameter (mtype p))) (sparams s) = true.
Proof.
  intros H. eexists.
  split; [unfold prototype_decls; header_cases inc env H | by repeat split].
Qed.

Lemma perform_error_recovery_selector_signature_witness :
  defined objcxx_env guard = false /\
  exists s,
    prototype_decls "_swift_stdlib_perform_error_recovery_selector"
      (preprocess no_macros header objcxx_env).2 = [s] /\
    map mname (sparams s) = ["delegate"; "selector"; "success"; "contextInfo"] /\
    accepts_null <$> param_type "delegate" s = Some true /\
    accepts_null <$> param_type "contextInfo" s = Some true /\
    never_null <$> param_type "selector" s = Some true /\
    sret s = Void /\
    forallb (fun p => negb (out_parameter (mtype p))) (sparams s) = true.
Proof.
  split; [reflexivity|].
  apply (perform_error_recovery_selector_signature no_macros objcxx_env).
  reflexivity.
Defined.

(** C5: the range mirror [_SwiftNSRange] is declared once, with exactly the
    two fields [location] and [length] in that order, each of the
    platform-native-width integer type [__swift_intptr_t]. *)
Theorem range_mirror_fields inc env :
  defined env guard = false ->
  exists fields,
    struct_decls "_SwiftNSRange" (preprocess inc header env).2 = [fields] /\
    map mname fields = ["location"; "length"] /\
    map mtype fields = [Named "__swift_intptr_t"; Named "__swift_intptr_t"] /\
    map (fun f => integer_type (mtype f)) fields =
      [Some (Signed, PointerWidth); Some (Signed, PointerWidth)].
Proof.
  intros H.
  exists [Member "location" (Named "__swift_intptr_t");
          Member "length" (Named "__swift_intptr_t")].
  split; [|by repeat split]. unfold struct_decls. header_cases inc env H.
Qed.

Lemma range_mirror_fields_witness :
  defined objcxx_env guard = false /\
  exists fields,
    struct_decls "_SwiftNSRange" (preprocess no_macros header objcxx_env).2
      = [fields] /\
    map mname fields = ["location"; "length"] /\
    map mtype fields = [Named "__swift_intptr_t"; Named "__swift_intptr_t"] /\
    map (fun f => integer_type (mtype f)) fields =
      [Some (Signed, PointerWidth); Some (Signed, PointerWidth)].
Proof.
  split; [reflexivity | apply (range_mirror_fields no_macros objcxx_env)].
  reflexivity.
Defined.

(** C6: the OS-version mirror [_SwiftNSOperatingSystemVersion] is declared
    once, with exactly the three fields [majorVersion], [minorVersion],
    [patchVersion] in that order, each of the platform-native-width integer
    type [__swift_intptr_t]. *)
Theorem os_version_mirror_fields inc env :
  defined env guard = false ->
  exists fields,
    struct_decls "_SwiftNSOperatingSystemVersion"
      (preprocess inc header env).2 = [fields] /\
    map mname fields = ["majorVersion"; "minorVersion"; "patchVersion"] /\
    map mtype fields =
      [Named "__swift_intptr_t"; Named "__swift_intptr_t";
       Named "__swift_intptr_t"] /\
    map (fun f => integer_type (mtype f)) fields =
      [Some (Signed, PointerWidth); Some (Signed, PointerWidth);
       Some (Signed, PointerWidth)].
Proof.
  intros H.
  exists [Member "majorVersion" (Named "__swift_intptr_t");
          Member "minorVersion" (Named "__swift_intptr_t");
          Member "patchVersion" (Named "__swift_intptr_t")].
  split; [|by repeat split]. unfold struct_decls. header_cases inc env H.
Qed.

Lemma os_version_mirror_fields_witness :
  defined objcxx_env guard = false /\
  exists fields,
    struct_decls "_SwiftNSOperatingSystemVersion"
      (preprocess no_macros header objcxx_env).2 = [fields] /\
    map mname fields = ["majorVersion"; "minorVersion"; "patchVersion"] /\
    map mtype fields =
      [Named "__swift_intptr_t"; Named "__swift_intptr_t";
       Named "__swift_intptr_t"] /\
    map (fun f => integer_type (mtype f)) fields =
      [Some (Signed, PointerWidth); Some (Signed, PointerWidth);
       Some (Signed, PointerWidth)].
Proof.
  split; [reflexivity | apply (os_version_mirror_fields no_macros objcxx_env)].
  reflexivity.
Defined.
(** C7: the enumeration-state mirror [_SwiftNSFastEnumerationState] is
    declared only when [__OBJC2__] is defined.  When it is, its fields are, in
    order: [state], an unsigned long word; [itemsPtr], a nullable pointer to
    unretained object references that may themselves be null;
    [mutationsPtr], a nullable pointer to an unsigned long word; and [extra],
    a block of exactly 5 unsigned long words. *)
Theorem fast_enumeration_state_mirror inc env :
  defined env guard = false ->
  let ds := (preprocess inc header env).2 in
  if defined (body_env inc env) "__OBJC2__" then
    exists state itemsPtr mutationsPtr extra,
      struct_decls "_SwiftNSFastEnumerationState" ds =
        [[Member "state" state; Member "itemsPtr" itemsPtr;
          Member "mutationsPtr" mutationsPtr; Member "extra" extra]] /\
      state = UnsignedLong /\
      integer_type state = Some (Unsigned, LongWidth) /\
      itemsPtr = Pointer (Id UnsafeUnretained Nullable) Nullable /\
      mutationsPtr = Pointer UnsignedLong Nullable /\
      extra = Array UnsignedLong 5
  else
    struct_decls "_SwiftNSFastEnumerationState" ds = [].
Proof.
  intros H ds. subst ds.
  destruct (defined (body_env inc env) "__OBJC2__") eqn:Hobjc.
  - exists UnsignedLong, (Pointer (Id UnsafeUnretained Nullable) Nullable),
      (Pointer UnsignedLong Nullable), (Array UnsignedLong 5).
    split; [|by repeat split].
    unfold struct_decls. rewrite (preprocess_header inc env H); cbn [snd].
    rewrite Hobjc.
    destruct (defined (body_env inc env) "__cplusplus");
      destruct (defined (body_env inc env) "SWIFT_ENUM");
      rewrite ?flat_map_app;
      rewrite ?flat_map_typedef_macro by (by intros []); reflexivity.
  - unfold struct_decls. rewrite (preprocess_header inc env H); cbn [snd].
    rewrite Hobjc.
    destruct (defined (body_env inc env) "__cplusplus");
      destruct (defined (body_env inc env) "SWIFT_ENUM");
      rewrite ?flat_map_app;
      rewrite ?flat_map_typedef_macro by (by intros []); reflexivity.
Qed.

Lemma fast_enumeration_state_mirror_witness :
  defined objcxx_env guard = false /\
  defined (body_env no_macros objcxx_env) "__OBJC2__" = true /\
  exists state itemsPtr mutationsPtr extra,
    struct_decls "_SwiftNSFastEnumerationState"
      (preprocess no_macros header objcxx_env).2 =
      [[Member "state" state; Member "itemsPtr" itemsPtr;
        Member "mutationsPtr" mutationsPtr; Member "extra" extra]] /\
    state = UnsignedLong /\
    integer_type state = Some (Unsigned, LongWidth) /\
    itemsPtr = Pointer (Id UnsafeUnretained Nullable) Nullable /\
    mutationsPtr = Pointer UnsignedLong Nullable /\
    extra = Array UnsignedLong 5.
Proof.
  split; [reflexivity|]. split; [reflexivity|].
  exact (fast_enumeration_state_mirror no_macros objcxx_env eq_refl).
Defined.

(** C8: [_swift_stdlib_operatingSystemVersion] is declared with no
    parameters (so no input and no error out-parameter) and returns the
    OS-version mirror struct itself, a type that is neither a pointer nor an
    object reference and so has no null value. *)
Theorem operating_system_version_signature inc env :
  defined env guard = false ->
  let ds := (preprocess inc header env).2 in
  exists s,
    prototype_decls "_swift_stdlib_operatingSystemVersion" ds = [s] /\
    sparams s = [] /\
    sret s = Named "_SwiftNSOperatingSystemVersion" /\
    (exists fields,
       struct_decls "_SwiftNSOperatingSystemVersion" ds = [fields] /\
       map mname fields = ["majorVersion"; "minorVersion"; "patchVersion"]) /\
    nullability_of (sret s) = None /\
    accepts_null (sret s) = false.
Proof.
  intros H ds. subst ds. eexists.
  split; [unfold prototype_decls; header_cases inc env H|].
  repeat split.
  eexists. split; [unfold struct_decls; header_cases inc env H | reflexivity].
Qed.

Lemma operating_system_version_signature_witness :
  defined objcxx_env guard = false /\
  exists s,
    prototype_decls "_swift_stdlib_operatingSystemVersion"
      (preprocess no_macros header objcxx_env).2 = [s] /\
    sparams s = [] /\
    sret s = Named "_SwiftNSOperatingSystemVersion" /\
    (exists fields,
       struct_decls "_SwiftNSOperatingSystemVersion"
         (preprocess no_macros header objcxx_env).2 = [fields] /\
       map mname fields = ["majorVersion"; "minorVersion"; "patchVersion"]) /\
    nullability_of (sret s) = None /\
    accepts_null (sret s) = false.
Proof.
  split; [reflexivity|].
  exact (operating_system_version_signature no_macros objcxx_env eq_refl).
Defined.

(** The header leaves its guard defined, as long as the file it includes
    does not undefine it. *)
Lemma header_defines_guard inc env :
  (forall e, defined e guard = true ->
             defined (inc "SwiftStdint.h" e) guard = true) ->
  defined (preprocess inc header env).1 guard = true.
Proof.
  intros Hinc. destruct (defined env guard) eqn:H.
  - by rewrite preprocess_header_guarded.
  - rewrite (preprocess_header inc env H); cbn [fst].
    assert (He : defined (body_env inc env) guard = true).
    { apply Hinc. rewrite defined_insert. by rewrite String.eqb_refl. }
    destruct (defined (body_env inc env) "SWIFT_ENUM"); [done|].
    rewrite defined_insert. by destruct (String.eqb _ _).
Qed.

(** Under a defined guard any number of copies of the header is skipped. *)
Lemma included_times_guarded inc n env :
  defined env guard = true ->
  preprocess inc (included_times n header) env = (env, []).
Proof.
  intros H. induction n as [|n IH]; [done|].
  change (included_times (S n) header)
    with (header ++ included_times n header).
  unfold preprocess in *. rewrite pp_seq_app.
  fold (preprocess inc header env).
  by rewrite (preprocess_header_guarded inc env H), IH.
Qed.

(** C9: the include guard makes inclusion idempotent.  Including the header
    [n + 1] times in a row gives the declarations (and the macro environment)
    of including it once, whatever the environment before; the file it
    includes is only required not to undefine the guard. *)
Theorem include_guard_idempotent inc n env :
  (forall e, defined e guard = true ->
             defined (inc "SwiftStdint.h" e) guard = true) ->
  preprocess inc (included_times (S n) header) env =
    preprocess inc header env.
Proof.
  intros Hinc.
  change (included_times (S n) header)
    with (header ++ included_times n header).
  unfold preprocess at 1. rewrite pp_seq_app.
  fold (preprocess inc header env).
  pose proof (header_defines_guard inc env Hinc) as Hg.
  destruct (preprocess inc header env) as [e1 d1]; cbn [fst] in Hg.
  fold (preprocess inc (included_times n header) e1).
  by rewrite (included_times_guarded inc n e1 Hg), app_nil_r.
Qed.

Lemma include_guard_idempotent_witness :
  (forall e, defined e guard = true ->
             defined (no_macros "SwiftStdint.h" e) guard = true) /\
  preprocess no_macros (included_times 3 header) objcxx_env =
    preprocess no_macros header objcxx_env.
Proof.
  assert (Hinc : forall e, defined e guard = true ->
                           defined (no_macros "SwiftStdint.h" e) guard = true)
    by (intros e He; exact He).
  split; [exact Hinc|].
  exact (include_guard_idempotent no_macros 2 objcxx_env Hinc).
Defined.

(** C10: besides the mirrored types the header declares two boolean aliases
    and no other typedef: [_SwiftObjCBool] is [signed char], a signed 8-bit
    integer, and [_SwiftCBool] is the native boolean ([bool] in C++, [_Bool]
    in C).  The [success] flag of the error-recovery entry point has type
    [_SwiftCBool], which stands for the native boolean and not for the type
    behind [_SwiftObjCBool]. *)
Theorem bool_aliases inc env :
  defined env guard = false ->
  let ds := (preprocess inc header env).2 in
  typedef_names ds = ["_SwiftObjCBool"; "_SwiftCBool"] /\
  typedef_decls "_SwiftObjCBool" ds = [SignedChar] /\
  integer_type SignedChar = Some (Signed, Bits 8) /\
  typedef_decls "_SwiftCBool" ds =
    [if defined (body_env inc env) "__cplusplus" then CxxBool else C99Bool] /\
  exists s success,
    prototype_decls "_swift_stdlib_perform_error_recovery_selector" ds = [s] /\
    param_type "success" s = Some success /\
    success = Named "_SwiftCBool" /\
    native_bool (resolve ds success) = true /\
    native_bool (resolve ds (Named "_SwiftObjCBool")) = false /\
    resolve ds success <> resolve ds (Named "_SwiftObjCBool").
Proof.
  intros H ds.
  assert (Hobjc : typedef_decls "_SwiftObjCBool" ds = [SignedChar]).
  { subst ds. unfold typedef_decls. header_cases inc env H. }
  assert (Hc : typedef_decls "_SwiftCBool" ds =
    [if defined (body_env inc env) "__cplusplus" then CxxBool else C99Bool]).
  { subst ds. unfold typedef_decls. header_cases inc env H. }
  split; [subst ds; unfold typedef_names; header_cases inc env H|].
  split; [exact Hobjc|]. split; [reflexivity|]. split; [exact Hc|].
  eexists _, (Named "_SwiftCBool").
  split; [subst ds; unfold prototype_decls; header_cases inc env H|].
  split; [reflexivity|]. split; [reflexivity|].
  unfold resolve. rewrite Hobjc, Hc.
  by destruct (defined (body_env inc env) "__cplusplus").
Qed.

Lemma bool_aliases_witness :
  defined objcxx_env guard = false /\
  typedef_decls "_SwiftObjCBool" (preprocess no_macros header objcxx_env).2
    = [SignedChar] /\
  typedef_decls "_SwiftCBool" (preprocess no_macros header objcxx_env).2
    = [CxxBool].
Proof.
  split; [reflexivity|].
  destruct (bool_aliases no_macros objcxx_env eq_refl) as (_ & Ho & _ & Hc & _).
  split; [exact Ho | exact Hc].
Defined.

End Claims.

(** ** Further properties of the header *)

Lemma nesting_skip depth ds rest :
  Forall from_typedef_macro ds ->
  nesting depth (ds ++ rest) = nesting depth rest.
Proof.
  induction 1 as [|d ds Hd _ IH]; [done|].
  destruct d; try done; exact IH.
Qed.

Lemma prototypes_in_skip stack ds rest :
  Forall from_typedef_macro ds ->
  prototypes_in stack (ds ++ rest) = prototypes_in stack rest.
Proof.
  induction 1 as [|d ds Hd _ IH]; [done|].
  destruct d; try done; exact IH.
Qed.

Section Structure.
Import FoundationShims.

Ltac header_split inc env H :=
  rewrite (preprocess_header inc env H); cbn [fst snd];
  destruct (defined (body_env inc env) "__cplusplus");
  destruct (defined (body_env inc env) "__OBJC2__");
  destruct (defined (body_env inc env) "SWIFT_ENUM");
  cbn [app].

(** X1: whatever the macro environment, the braces the header opens it also
    closes: the three tests of [__cplusplus] (lines 32, 81, 94) agree, so the
    declarations leave the nesting depth where they found it. *)
Theorem header_blocks_balanced inc env :
  nesting 0 (preprocess inc header env).2 = Some 0%nat.
Proof.
  destruct (defined env guard) eqn:H.
  - by rewrite preprocess_header_guarded.
  - header_split inc env H; cbn [nesting];
      rewrite ?(nesting_skip _ _ _ (pp_typedef_macro_shape _ _ _ _));
      reflexivity.
Qed.

(** X2: compiled as C++, each of the three entry points is declared inside
    [extern "C"] inside [namespace swift]; compiled as C, at file scope. *)
Theorem entry_points_linkage inc env :
  defined env guard = false ->
  prototypes_in [] (preprocess inc header env).2 =
    map (fun n => (n, if defined (body_env inc env) "__cplusplus"
                      then [InExternC; InNamespace "swift"] else []))
      ["_swift_stdlib_operatingSystemVersion";
       "_swift_stdlib_nserror_key";
       "_swift_stdlib_perform_error_recovery_selector"].
Proof.
  intros H.
  header_split inc env H; cbn [prototypes_in];
    rewrite ?(prototypes_in_skip _ _ _ (pp_typedef_macro_shape _ _ _ _));
    reflexivity.
Qed.

Lemma entry_points_linkage_witness :
  defined objcxx_env guard = false /\
  prototypes_in [] (preprocess no_macros header objcxx_env).2 =
    [("_swift_stdlib_operatingSystemVersion",
      [InExternC; InNamespace "swift"]);
     ("_swift_stdlib_nserror_key", [InExternC; InNamespace "swift"]);
     ("_swift_stdlib_perform_error_recovery_selector",
      [InExternC; InNamespace "swift"])].
Proof.
  split; [reflexivity|].
  exact (entry_points_linkage no_macros objcxx_env eq_refl).
Defined.

(** X3: the header contributes no declaration exactly when its guard is
    already defined; in that case it also leaves the macro environment as it
    was. *)
Theorem header_empty_iff_guarded inc env :
  ((preprocess inc header env).2 = [] <-> defined env guard = true) /\
  ((preprocess inc header env).2 = [] -> (preprocess inc header env).1 = env).
Proof.
  destruct (defined env guard) eqn:H.
  - rewrite (preprocess_header_guarded inc env H). by repeat split.
  - assert (Hne : (preprocess inc header env).2 <> []).
    { header_split inc env H; discriminate. }
    split; [split|]; intros; congruence.
Qed.

Lemma header_empty_iff_guarded_witness :
  (preprocess no_macros header (<[guard := ObjectLike []]> ∅)).2 = [] /\
  (preprocess no_macros header (<[guard := ObjectLike []]> ∅)).1
    = <[guard := ObjectLike []]> ∅.
Proof.
  assert (He : (preprocess no_macros header (<[guard := ObjectLike []]> ∅)).2
               = []) by reflexivity.
  split; [exact He|].
  exact (proj2 (header_empty_iff_guarded no_macros
                  (<[guard := ObjectLike []]> ∅)) He).
Defined.

(** X7: every function the header declares carries the export attribute
    [SWIFT_RUNTIME_STDLIB_INTERFACE], in every configuration. *)
Theorem entry_points_exported inc env :
  Forall (eq [SWIFT_RUNTIME_STDLIB_INTERFACE])
    (prototype_attrs (preprocess inc header env).2).
Proof.
  destruct (defined env guard) eqn:H.
  - rewrite preprocess_header_guarded by done. constructor.
  - unfold prototype_attrs. header_split inc env H; cbn [flat_map app];
      rewrite ?flat_map_app;
      rewrite ?flat_map_typedef_macro by (by intros []);
      cbn [flat_map app]; repeat constructor.
Qed.

End Structure.

Section Macros.
Import FoundationShims.

(** X4: the header touches no macro but its guard and [SWIFT_ENUM]: any other
    macro that [SwiftStdint.h] leaves alone has, after the header, the
    definition (or none) it had before. *)
Theorem header_macro_frame inc env m :
  (forall e, inc "SwiftStdint.h" e !! m = e !! m) ->
  m <> guard -> m <> "SWIFT_ENUM" ->
  (preprocess inc header env).1 !! m = env !! m.
Proof.
  intros Hinc Hg Hs. destruct (defined env guard) eqn:H.
  - by rewrite preprocess_header_guarded.
  - rewrite (preprocess_header inc env H); cbn [fst].
    assert (He : body_env inc env !! m = env !! m).
    { unfold body_env. rewrite Hinc. by rewrite lookup_insert_ne. }
    destruct (defined (body_env inc env) "SWIFT_ENUM"); [done|].
    by rewrite lookup_insert_ne.
Qed.

Lemma header_macro_frame_witness :
  (forall e : gmap string macro_def,
     no_macros "SwiftStdint.h" e !! "__OBJC2__" = e !! "__OBJC2__") /\
  "__OBJC2__" <> guard /\ "__OBJC2__" <> "SWIFT_ENUM" /\
  (preprocess no_macros header objcxx_env).1 !! "__OBJC2__"
    = objcxx_env !! "__OBJC2__".
Proof.
  assert (H1 : forall e : gmap string macro_def,
             no_macros "SwiftStdint.h" e !! "__OBJC2__" = e !! "__OBJC2__")
    by reflexivity.
  assert (H2 : "__OBJC2__" <> guard) by discriminate.
  assert (H3 : "__OBJC2__" <> "SWIFT_ENUM") by discriminate.
  split; [exact H1|]. split; [exact H2|]. split; [exact H3|].
  exact (header_macro_frame no_macros objcxx_env "__OBJC2__" H1 H2 H3).
Defined.

(** X5: the header never replaces a definition of [SWIFT_ENUM] made before
    line 60, and it does not undefine its own: after the header
    [SWIFT_ENUM] is defined, as the earlier definition when there was one
    and as that of line 61 otherwise. *)
Theorem swift_enum_kept_or_installed inc env :
  defined env guard = false ->
  (preprocess inc header env).1 !! "SWIFT_ENUM" =
    Some (default SWIFT_ENUM (body_env inc env !! "SWIFT_ENUM")).
Proof.
  intros H. rewrite (preprocess_header inc env H); cbn [fst].
  unfold defined. destruct (body_env inc env !! "SWIFT_ENUM") eqn:He.
  - exact He.
  - apply lookup_insert_eq.
Qed.

Lemma swift_enum_kept_or_installed_witness :
  let foreign := FunctionLike ["_type"; "_name"] [TkEnum; TkIdent "_name"] in
  defined (<["SWIFT_ENUM" := foreign]> ∅ : gmap string macro_def) guard
    = false /\
  (preprocess no_macros header (<["SWIFT_ENUM" := foreign]> ∅)).1
    !! "SWIFT_ENUM" = Some foreign.
Proof.
  intros foreign. split; [reflexivity|].
  exact (swift_enum_kept_or_installed no_macros
           (<["SWIFT_ENUM" := foreign]> ∅) eq_refl).
Defined.

(** X6: under the definition of line 61, [typedef SWIFT_ENUM(ty, name) {...}]
    declares, for any two identifiers, the enumeration [name] over [ty] and
    the typedef name [name] for it; a call with another number of arguments
    is not expanded. *)
Theorem swift_enum_expansion env ty name es :
  env !! "SWIFT_ENUM" = Some SWIFT_ENUM ->
  pp_typedef_macro env "SWIFT_ENUM" [[TkIdent ty]; [TkIdent name]] es =
    [TypedefEnum name (Named ty) name; EnumDef name (Named ty) es] /\
  (forall args, length args <> 2%nat ->
     pp_typedef_macro env "SWIFT_ENUM" args es =
       [Unparsed (TkIdent "SWIFT_ENUM" :: concat args) es]).
Proof.
  intros H. unfold pp_typedef_macro. rewrite H. split; [reflexivity|].
  intros args Hlen.
  destruct args as [|a1 [|a2 [|a3 args]]]; try reflexivity.
  by destruct Hlen.
Qed.

Lemma swift_enum_expansion_witness :
  (<["SWIFT_ENUM" := SWIFT_ENUM]> ∅ : gmap string macro_def) !! "SWIFT_ENUM"
    = Some SWIFT_ENUM /\
  pp_typedef_macro (<["SWIFT_ENUM" := SWIFT_ENUM]> ∅) "SWIFT_ENUM"
    [[TkIdent "_type"]; [TkIdent "_type"]] [] =
    [TypedefEnum "_type" (Named "_type") "_type";
     EnumDef "_type" (Named "_type") []].
Proof.
  split; [reflexivity|].
  exact (proj1 (swift_enum_expansion (<["SWIFT_ENUM" := SWIFT_ENUM]> ∅)
                  "_type" "_type" [] eq_refl)).
Defined.



End Macros.

Lemma existsb_eqb_In n (l : list string) :
  existsb (String.eqb n) l = true <-> In n l.
Proof.
  rewrite existsb_exists. split.
  - intros (x & Hx & Heq). by apply String.eqb_eq in Heq as ->.
  - intros Hn. exists n. by rewrite String.eqb_refl.
Qed.

(** A name used before any declaration of it has to be known beforehand. *)
Lemma declared_before_use_known n ds known :
  declared_before_use known ds = true ->
  used_undeclared n ds = true ->
  In n known.
Proof.
  revert known. induction ds as [|d ds IH]; intros known Hd Hu; [done|].
  cbn [declared_before_use used_undeclared] in *.
  apply andb_prop in Hd as [Huses Hrest].
  destruct (existsb (String.eqb n) (uses d)) eqn:Hn.
  - apply existsb_eqb_In in Hn. rewrite forallb_forall in Huses.
    specialize (Huses n Hn). cbn beta in Huses.
    apply existsb_exists in Huses as (x & Hx & Heq).
    by apply String.eqb_eq in Heq as ->.
  - destruct (existsb (String.eqb n) (declares d)) eqn:Hdecl; [done|].
    specialize (IH _ Hrest Hu). apply in_app_or in IH as [Hin|Hin]; [|done].
    apply existsb_eqb_In in Hin. congruence.
Qed.

(** A [SWIFT_ENUM] from elsewhere that declares no typedef name leaves the
    parameter type of line 74 undeclared. *)
Example foreign_swift_enum_undeclared :
  declared_before_use ["__swift_int8_t"; "__swift_intptr_t"]
    (preprocess no_macros FoundationShims.header
       (<["SWIFT_ENUM" :=
            FunctionLike ["_type"; "_name"] [TkEnum; TkIdent "_name"]]> ∅)).2
  = false.
Proof. reflexivity. Qed.

Section Scoping.
Import FoundationShims.

(** X8: with its own [SWIFT_ENUM] in force the header is self-contained but
    for [SwiftStdint.h]: every typedef name is declared before the line that
    uses it once [__swift_int8_t] and [__swift_intptr_t] are known, and a
    set of known names under which this holds must contain those two. *)
Theorem header_declared_before_use inc env :
  defined env guard = false ->
  defined (body_env inc env) "SWIFT_ENUM" = false ->
  declared_before_use ["__swift_int8_t"; "__swift_intptr_t"]
    (preprocess inc header env).2 = true /\
  (forall known,
     declared_before_use known (preprocess inc header env).2 = true ->
     In "__swift_int8_t" known /\ In "__swift_intptr_t" known).
Proof.
  intros H HE. rewrite (preprocess_header inc env H); cbn [snd]. rewrite HE.
  split.
  - by destruct (defined (body_env inc env) "__cplusplus");
      destruct (defined (body_env inc env) "__OBJC2__").
  - intros known Hk.
    split; apply (declared_before_use_known _ _ _ Hk);
      by destruct (defined (body_env inc env) "__cplusplus");
        destruct (defined (body_env inc env) "__OBJC2__").
Qed.

Lemma header_declared_before_use_witness :
  defined objcxx_env guard = false /\
  defined (body_env no_macros objcxx_env) "SWIFT_ENUM" = false /\
  declared_before_use ["__swift_int8_t"; "__swift_intptr_t"]
    (preprocess no_macros header objcxx_env).2 = true.
Proof.
  split; [reflexivity|]. split; [reflexivity|].
  exact (proj1 (header_declared_before_use no_macros objcxx_env
                  eq_refl eq_refl)).
Defined.

End Scoping.

(** An offset that is a multiple of the alignment needs no padding. *)
Lemma align_up_divide off a :
  0 < a -> (a | off) -> align_up off a = off.
Proof.
  intros Ha [k ->]. unfold align_up.
  replace (k * a + a - 1) with (a - 1 + k * a) by lia.
  rewrite Z.div_add by lia. rewrite Z.div_small by lia. lia.
Qed.

(** Where [long] is shorter than a pointer the enumeration state is padded
    after [state] and at its end. *)
Example fast_enumeration_state_padded :
  layout (DataModel 4 8)
    (struct_fields FoundationShims._SwiftNSFastEnumerationState)
  = Some ([("state", 0); ("itemsPtr", 8); ("mutationsPtr", 16);
           ("extra", 24)], 48).
Proof. reflexivity. Qed.

Section Layout.
Import FoundationShims.

Ltac divides :=
  repeat first
    [ apply Z.divide_0_r | apply Z.divide_refl | apply Z.divide_add_r
    | apply Z.divide_factor_r | apply Z.divide_factor_l ].

(** X10: on a platform where [long] and pointers have one size [w] (ILP32,
    LP64) the three mirrored structs have no padding: their fields lie at
    consecutive multiples of [w], and the structs take 2, 3 and 8 words. *)
Theorem mirrors_have_no_padding dm w :
  long_bytes dm = w -> pointer_bytes dm = w -> 0 < w ->
  layout dm (struct_fields _SwiftNSRange) =
    Some ([("location", 0); ("length", w)], 2 * w) /\
  layout dm (struct_fields _SwiftNSOperatingSystemVersion) =
    Some ([("majorVersion", 0); ("minorVersion", w); ("patchVersion", 2 * w)],
          3 * w) /\
  layout dm (struct_fields _SwiftNSFastEnumerationState) =
    Some ([("state", 0); ("itemsPtr", w); ("mutationsPtr", 2 * w);
           ("extra", 3 * w)], 8 * w).
Proof.
  intros Hl Hp Hw. unfold layout.
  cbn [struct_fields _SwiftNSRange _SwiftNSOperatingSystemVersion
       _SwiftNSFastEnumerationState layout_from sizeof alignof integer_type
       SwiftStdint.integer_typedef String.eqb Ascii.eqb Bool.eqb mtype mname
       width_bytes].
  rewrite Hl, Hp. rewrite !(Z.max_r 1 w) by lia. rewrite !Z.max_id.
  change (Z.of_nat 5) with 5.
  repeat (rewrite align_up_divide by (try lia; divides)).
  repeat split; repeat f_equal; lia.
Qed.

Lemma mirrors_have_no_padding_witness :
  long_bytes (DataModel 8 8) = 8 /\ pointer_bytes (DataModel 8 8) = 8 /\
  0 < 8 /\
  layout (DataModel 8 8) (struct_fields _SwiftNSFastEnumerationState) =
    Some ([("state", 0); ("itemsPtr", 8); ("mutationsPtr", 2 * 8);
           ("extra", 3 * 8)], 8 * 8).
Proof.
  assert (Hw : 0 < 8) by lia.
  split; [reflexivity|]. split; [reflexivity|]. split; [exact Hw|].
  exact (proj2 (proj2
    (mirrors_have_no_padding (DataModel 8 8) 8 eq_refl eq_refl Hw))).
Defined.

End Layout.


Section Persistence.

Variable inc : string -> gmap string macro_def -> gmap string macro_def.
Variable m : string.
Hypothesis inc_keeps :
  forall f e, defined e m = true -> defined (inc f e) m = true.




End Persistence.

Section Reinclusion.
Import FoundationShims.



End Reinclusion.
